(** * Evaluated values of the GlueSQL expression evaluator

    A shallow embedding of [src/executor/evaluate/evaluated.rs]: the
    five-variant [Evaluated] type, its [PartialEq] and [PartialOrd]
    implementations, the four arithmetic operations and the literal
    helpers [literal_partial_cmp], [literal_add], [literal_subtract],
    [literal_multiply] and [literal_divide].

    Conventions of the embedding.
    - A Rust call that may panic is modelled in [exec]: [Ret v] when it
      returns [v], [Panic] when it panics ([panic!()], or the panic of
      Rust's [i64] operators).
    - [crate::result::Result<T>] is [result T]; a [Result]-returning call
      that may panic is therefore of type [exec (result T)].
    - [std::cmp::Ordering] is [comparison]; [Ordering::reverse] is
      [CompOpp].
    - The typed runtime domain [crate::data::Value] is a class of
      operations ([ValueOps]): this module only delegates to them. *)

From Stdlib Require Import ZArith Strings.String Strings.Ascii Bool Lia.
From Stdlib Require Import Numbers.DecimalString Numbers.DecimalZ.

Open Scope Z_scope.

(** ** Panics and results *)

Inductive exec (A : Type) : Type :=
| Ret (a : A)
| Panic.
Arguments Ret {A} a.
Arguments Panic {A}.

(** [super::EvaluateError], the two variants this module raises. *)
Inductive EvaluateError : Type :=
| UnreachableEvaluatedArithmetic
| UnreachableLiteralArithmetic.

(** Modelled from the spec: [crate::result::Error] (not in the sources).
    Evaluation errors of this module, and the errors raised by the typed
    domain, which this module propagates unchanged. *)
Inductive Error : Type :=
| Evaluate (e : EvaluateError)
| ValueError (msg : string).

Inductive result (A : Type) : Type :=
| Ok (a : A)
| Err (e : Error).
Arguments Ok {A} a.
Arguments Err {A} e.

(** [Result::map] *)
Definition result_map {A B} (f : A -> B) (r : result A) : result B :=
  match r with
  | Ok a => Ok (f a)
  | Err e => Err e
  end.

(** ** Rust's [i64] *)

Module I64.

Definition MIN : Z := - 2 ^ 63.
Definition MAX : Z := 2 ^ 63 - 1.

Definition in_range (z : Z) : bool := (MIN <=? z) && (z <=? MAX).

(** Two's-complement wrap-around to 64 bits. *)
Definition wrap (z : Z) : Z := (z + 2 ^ 63) mod 2 ^ 64 - 2 ^ 63.

(** [a + b], [a - b], [a * b]: with overflow checks (debug profile) an
    out-of-range result panics, without them (release profile) it wraps. *)
Definition checked (overflow_checks : bool) (z : Z) : exec Z :=
  if in_range z then Ret z
  else if overflow_checks then Panic else Ret (wrap z).

Definition add (overflow_checks : bool) (a b : Z) : exec Z :=
  checked overflow_checks (a + b).
Definition sub (overflow_checks : bool) (a b : Z) : exec Z :=
  checked overflow_checks (a - b).
Definition mul (overflow_checks : bool) (a b : Z) : exec Z :=
  checked overflow_checks (a * b).

(** [a / b]: truncating division; a zero divisor and [MIN / -1] panic in
    every profile. *)
Definition div (a b : Z) : exec Z :=
  if b =? 0 then Panic
  else if (a =? MIN) && (b =? -1) then Panic
  else Ret (Z.quot a b).

(** [str::parse::<i64>]: an optional sign ['+'] or ['-'], then one or more
    ASCII digits, the value within range. *)
Definition digit (c : ascii) : option Z :=
  let n := Z.of_nat (nat_of_ascii c) - 48 in
  if (0 <=? n) && (n <=? 9) then Some n else None.

Fixpoint digits (acc : Z) (s : string) : option Z :=
  match s with
  | EmptyString => Some acc
  | String c s' =>
      match digit c with
      | Some d => digits (acc * 10 + d) s'
      | None => None
      end
  end.

Definition magnitude (s : string) : option Z :=
  match s with
  | EmptyString => None
  | String c rest =>
      if Ascii.eqb c "+"%char then
        match rest with EmptyString => None | _ => digits 0 rest end
      else if Ascii.eqb c "-"%char then
        match rest with
        | EmptyString => None
        | _ => option_map Z.opp (digits 0 rest)
        end
      else digits 0 s
  end.

Definition parse (s : string) : option Z :=
  match magnitude s with
  | Some z => if in_range z then Some z else None
  | None => None
  end.

(** [i64::to_string]: decimal digits, with ['-'] when negative. *)
Definition to_string (z : Z) : string := NilZero.string_of_int (Z.to_int z).

End I64.

(** ** The two value domains *)

(** [sqlparser::ast::Value], imported as [AstValue]: the literal node of
    the parser, with its derived [PartialEq]. *)
Inductive AstValue : Type :=
| Number (s : string)
| SingleQuotedString (s : string)
| NationalStringLiteral (s : string)
| HexStringLiteral (s : string)
| Boolean (b : bool)
| Null.

Definition AstValue_eqb (a b : AstValue) : bool :=
  match a, b with
  | Number l, Number r => String.eqb l r
  | SingleQuotedString l, SingleQuotedString r => String.eqb l r
  | NationalStringLiteral l, NationalStringLiteral r => String.eqb l r
  | HexStringLiteral l, HexStringLiteral r => String.eqb l r
  | Boolean l, Boolean r => Bool.eqb l r
  | Null, Null => true
  | _, _ => false
  end.

Module data.

(** Modelled from the spec: [crate::data::Value] (not in the sources), the
    typed runtime domain: integer, text, boolean and the empty value.  The
    module itself only inspects the [Str] variant. *)
Inductive Value : Type :=
| Bool (b : bool)
| I64 (n : Z)
| Str (s : string)
| Empty.

End data.

(** Modelled from the spec: the capability set of the typed domain
    ([impl PartialEq<Value>], [impl PartialEq<AstValue>],
    [impl PartialOrd<Value>], [impl PartialOrd<AstValue>] for
    [data::Value], its fallible [add], [subtract], [multiply], [divide] and
    [clone_by], which builds a value of the receiver's type from a literal;
    all in [crate::data], not in the sources). *)
Class ValueOps : Type := {
  value_eq : data.Value -> data.Value -> bool;
  value_eq_ast : data.Value -> AstValue -> bool;
  value_partial_cmp : data.Value -> data.Value -> option comparison;
  value_partial_cmp_ast : data.Value -> AstValue -> option comparison;
  value_add : data.Value -> data.Value -> result data.Value;
  value_subtract : data.Value -> data.Value -> result data.Value;
  value_multiply : data.Value -> data.Value -> result data.Value;
  value_divide : data.Value -> data.Value -> result data.Value;
  clone_by : data.Value -> AstValue -> result data.Value
}.

(** ** [Evaluated] *)

Inductive Evaluated : Type :=
| LiteralRef (l : AstValue)
| Literal (l : AstValue)
| StringRef (s : string)
| ValueRef (v : data.Value)
| Value (v : data.Value).

(** [&str] and [String] ordering: lexicographic on the characters. *)
Definition str_partial_cmp (l r : string) : option comparison :=
  Some (String.compare l r).

(** [Result::map] over a call that may panic. *)
Definition exec_map {A B} (f : A -> B) (x : exec A) : exec B :=
  match x with
  | Ret a => Ret (f a)
  | Panic => Panic
  end.

(** The [?] operator: an [Err] returns early, an [Ok] continues. *)
Definition try_bind {A B} (r : result A) (k : A -> result B) : result B :=
  match r with
  | Ok a => k a
  | Err e => Err e
  end.

(** ** Literal helpers (free functions of the module) *)

Definition literal_partial_cmp (a b : AstValue) : option comparison :=
  match a, b with
  | Number l, Number r =>
      match I64.parse l, I64.parse r with
      | Some l, Some r => Some (Z.compare l r)
      | _, _ => None
      end
  | SingleQuotedString l, SingleQuotedString r => Some (String.compare l r)
  | _, _ => None
  end.

Section LiteralArithmetic.

(** The build profile: whether [i64] overflow checks are compiled in. *)
Variable overflow_checks : bool.

Definition literal_add (a b : AstValue) : exec (result AstValue) :=
  match a, b with
  | Number a, Number b =>
      match I64.parse a, I64.parse b with
      | Some a, Some b =>
          exec_map (fun n => Ok (Number (I64.to_string n)))
                   (I64.add overflow_checks a b)
      | _, _ => Panic
      end
  | _, _ => Ret (Err (Evaluate UnreachableLiteralArithmetic))
  end.

Definition literal_subtract (a b : AstValue) : exec (result AstValue) :=
  match a, b with
  | Number a, Number b =>
      match I64.parse a, I64.parse b with
      | Some a, Some b =>
          exec_map (fun n => Ok (Number (I64.to_string n)))
                   (I64.sub overflow_checks a b)
      | _, _ => Panic
      end
  | _, _ => Ret (Err (Evaluate UnreachableLiteralArithmetic))
  end.

Definition literal_multiply (a b : AstValue) : exec (result AstValue) :=
  match a, b with
  | Number a, Number b =>
      match I64.parse a, I64.parse b with
      | Some a, Some b =>
          exec_map (fun n => Ok (Number (I64.to_string n)))
                   (I64.mul overflow_checks a b)
      | _, _ => Panic
      end
  | _, _ => Ret (Err (Evaluate UnreachableLiteralArithmetic))
  end.

End LiteralArithmetic.

Definition literal_divide (a b : AstValue) : exec (result AstValue) :=
  match a, b with
  | Number a, Number b =>
      match I64.parse a, I64.parse b with
      | Some a, Some b =>
          exec_map (fun n => Ok (Number (I64.to_string n))) (I64.div a b)
      | _, _ => Panic
      end
  | _, _ => Ret (Err (Evaluate UnreachableLiteralArithmetic))
  end.

(** ** [impl Evaluated] *)

Module Evaluated.

Section Impl.

Context {VO : ValueOps}.
Variable overflow_checks : bool.

(** *** [impl PartialEq for Evaluated] *)

Definition eq_ast (l : AstValue) (r : string) : bool :=
  match l with
  | SingleQuotedString l => String.eqb l r
  | _ => false
  end.

Definition eq_val (l : data.Value) (r : string) : bool :=
  match l with
  | data.Str l => String.eqb l r
  | _ => false
  end.

Definition eq (self other : Evaluated) : exec bool :=
  match self with
  | LiteralRef l =>
      match other with
      | LiteralRef r => Ret (AstValue_eqb l r)
      | StringRef r => Ret (eq_ast l r)
      | ValueRef r => Ret (value_eq_ast r l)
      | Value r => Ret (value_eq_ast r l)
      | Literal _ => Panic
      end
  | StringRef l =>
      match other with
      | LiteralRef r => Ret (eq_ast r l)
      | StringRef r => Ret (String.eqb l r)
      | ValueRef r => Ret (eq_val r l)
      | Value r => Ret (eq_val r l)
      | Literal _ => Ret false
      end
  | ValueRef l =>
      match other with
      | LiteralRef r => Ret (value_eq_ast l r)
      | Literal r => Ret (value_eq_ast l r)
      | StringRef r => Ret (eq_val l r)
      | ValueRef r => Ret (value_eq l r)
      | Value r => Ret (value_eq l r)
      end
  | Value l =>
      match other with
      | LiteralRef r => Ret (value_eq_ast l r)
      | StringRef r => Ret (eq_val l r)
      | ValueRef r => Ret (value_eq l r)
      | Value r => Ret (value_eq l r)
      | Literal _ => Panic
      end
  | Literal l =>
      match other with
      | ValueRef r => Ret (value_eq_ast r l)
      | StringRef _ => Ret false
      | _ => Panic
      end
  end.

(** *** [impl PartialOrd for Evaluated] *)

Definition partial_cmp (self other : Evaluated) : exec (option comparison) :=
  match self with
  | LiteralRef l =>
      match other with
      | LiteralRef r => Ret (literal_partial_cmp l r)
      | ValueRef r => Ret (option_map CompOpp (value_partial_cmp_ast r l))
      | Value r => Ret (option_map CompOpp (value_partial_cmp_ast r l))
      | StringRef _ => Ret None
      | Literal _ => Panic
      end
  | ValueRef l =>
      match other with
      | LiteralRef r => Ret (value_partial_cmp_ast l r)
      | ValueRef r => Ret (value_partial_cmp l r)
      | Value r => Ret (value_partial_cmp l r)
      | StringRef r =>
          match l with
          | data.Str l => Ret (str_partial_cmp l r)
          | _ => Ret None
          end
      | Literal _ => Panic
      end
  | Value l =>
      match other with
      | LiteralRef r => Ret (value_partial_cmp_ast l r)
      | ValueRef r => Ret (value_partial_cmp l r)
      | Value r => Ret (value_partial_cmp l r)
      | StringRef r =>
          match l with
          | data.Str l => Ret (str_partial_cmp l r)
          | _ => Ret None
          end
      | Literal _ => Panic
      end
  | StringRef l =>
      match other with
      | LiteralRef _ => Ret None
      | ValueRef (data.Str r) => Ret (str_partial_cmp l r)
      | Value (data.Str r) => Ret (str_partial_cmp l r)
      | StringRef r => Ret (str_partial_cmp l r)
      | Literal _ => Panic
      | _ => Ret None
      end
  | Literal _ => Panic
  end.

(** *** Arithmetic *)

Definition unreachable : exec (result Evaluated) :=
  Ret (Err (Evaluate UnreachableEvaluatedArithmetic)).

Definition add (self other : Evaluated) : exec (result Evaluated) :=
  let add_literal (l : AstValue) (other : Evaluated) :=
    match other with
    | LiteralRef r => exec_map (result_map Literal) (literal_add overflow_checks l r)
    | Literal r => exec_map (result_map Literal) (literal_add overflow_checks l r)
    | ValueRef r => Ret (try_bind (clone_by r l) (fun c => result_map Value (value_add r c)))
    | Value r => Ret (try_bind (clone_by r l) (fun c => result_map Value (value_add r c)))
    | StringRef _ => unreachable
    end in
  let add_value (l : data.Value) (other : Evaluated) :=
    match other with
    | LiteralRef r => Ret (try_bind (clone_by l r) (fun c => result_map Value (value_add l c)))
    | Literal r => Ret (try_bind (clone_by l r) (fun c => result_map Value (value_add l c)))
    | ValueRef r => Ret (result_map Value (value_add l r))
    | Value r => Ret (result_map Value (value_add l r))
    | StringRef _ => unreachable
    end in
  match self with
  | LiteralRef l => add_literal l other
  | Literal l => add_literal l other
  | ValueRef l => add_value l other
  | Value l => add_value l other
  | StringRef _ => unreachable
  end.

Definition subtract (self other : Evaluated) : exec (result Evaluated) :=
  let subtract_literal (l : AstValue) (other : Evaluated) :=
    match other with
    | LiteralRef r => exec_map (result_map Literal) (literal_subtract overflow_checks l r)
    | Literal r => exec_map (result_map Literal) (literal_subtract overflow_checks l r)
    | ValueRef r => Ret (try_bind (clone_by r l) (fun c => result_map Value (value_subtract c r)))
    | Value r => Ret (try_bind (clone_by r l) (fun c => result_map Value (value_subtract c r)))
    | StringRef _ => unreachable
    end in
  let subtract_value (l : data.Value) (other : Evaluated) :=
    match other with
    | LiteralRef r => Ret (try_bind (clone_by l r) (fun c => result_map Value (value_subtract l c)))
    | Literal r => Ret (try_bind (clone_by l r) (fun c => result_map Value (value_subtract l c)))
    | ValueRef r => Ret (result_map Value (value_subtract l r))
    | Value r => Ret (result_map Value (value_subtract l r))
    | StringRef _ => unreachable
    end in
  match self with
  | LiteralRef l => subtract_literal l other
  | Literal l => subtract_literal l other
  | ValueRef l => subtract_value l other
  | Value l => subtract_value l other
  | StringRef _ => unreachable
  end.

Definition multiply (self other : Evaluated) : exec (result Evaluated) :=
  let multiply_literal (l : AstValue) (other : Evaluated) :=
    match other with
    | LiteralRef r => exec_map (result_map Literal) (literal_multiply overflow_checks l r)
    | Literal r => exec_map (result_map Literal) (literal_multiply overflow_checks l r)
    | ValueRef r => Ret (try_bind (clone_by r l) (fun c => result_map Value (value_multiply c r)))
    | Value r => Ret (try_bind (clone_by r l) (fun c => result_map Value (value_multiply c r)))
    | StringRef _ => unreachable
    end in
  let multiply_value (l : data.Value) (other : Evaluated) :=
    match other with
    | LiteralRef r => Ret (try_bind (clone_by l r) (fun c => result_map Value (value_multiply l c)))
    | Literal r => Ret (try_bind (clone_by l r) (fun c => result_map Value (value_multiply l c)))
    | ValueRef r => Ret (result_map Value (value_multiply l r))
    | Value r => Ret (result_map Value (value_multiply l r))
    | StringRef _ => unreachable
    end in
  match self with
  | LiteralRef l => multiply_literal l other
  | Literal l => multiply_literal l other
  | ValueRef l => multiply_value l other
  | Value l => multiply_value l other
  | StringRef _ => unreachable
  end.

Definition divide (self other : Evaluated) : exec (result Evaluated) :=
  let divide_literal (l : AstValue) (other : Evaluated) :=
    match other with
    | LiteralRef r => exec_map (result_map Literal) (literal_divide l r)
    | Literal r => exec_map (result_map Literal) (literal_divide l r)
    | ValueRef r => Ret (try_bind (clone_by r l) (fun c => result_map Value (value_divide c r)))
    | Value r => Ret (try_bind (clone_by r l) (fun c => result_map Value (value_divide c r)))
    | StringRef _ => unreachable
    end in
  let divide_value (l : data.Value) (other : Evaluated) :=
    match other with
    | LiteralRef r => Ret (try_bind (clone_by l r) (fun c => result_map Value (value_divide l c)))
    | Literal r => Ret (try_bind (clone_by l r) (fun c => result_map Value (value_divide l c)))
    | ValueRef r => Ret (result_map Value (value_divide l r))
    | Value r => Ret (result_map Value (value_divide l r))
    | StringRef _ => unreachable
    end in
  match self with
  | LiteralRef l => divide_literal l other
  | Literal l => divide_literal l other
  | ValueRef l => divide_value l other
  | Value l => divide_value l other
  | StringRef _ => unreachable
  end.

End Impl.

End Evaluated.

(** ** A typed domain

    Modelled from the spec: one implementation of [ValueOps] for
    [data::Value] (not in the sources), used to run the operations on
    concrete inputs: integers compare and compute among themselves, texts
    compare among themselves, a literal is coerced into the peer's type by
    parsing its text, and a zero divisor is a typed-domain error. *)
Module ValueModel.

Definition num_err : Error := ValueError "non-numeric operands".

Definition value_eqb (a b : data.Value) : bool :=
  match a, b with
  | data.Bool a, data.Bool b => Bool.eqb a b
  | data.I64 a, data.I64 b => Z.eqb a b
  | data.Str a, data.Str b => String.eqb a b
  | data.Empty, data.Empty => true
  | _, _ => false
  end.

Definition clone_by_literal (v : data.Value) (l : AstValue) : result data.Value :=
  match v, l with
  | data.I64 _, Number s =>
      match I64.parse s with
      | Some n => Ok (data.I64 n)
      | None => Err (ValueError "literal is not an i64")
      end
  | data.Str _, SingleQuotedString s => Ok (data.Str s)
  | data.Bool _, Boolean b => Ok (data.Bool b)
  | _, _ => Err (ValueError "literal does not fit the value type")
  end.

Definition value_eqb_ast (v : data.Value) (l : AstValue) : bool :=
  match clone_by_literal v l with
  | Ok w => value_eqb v w
  | Err _ => false
  end.

Definition partial_cmp (a b : data.Value) : option comparison :=
  match a, b with
  | data.I64 a, data.I64 b => Some (Z.compare a b)
  | data.Str a, data.Str b => Some (String.compare a b)
  | _, _ => None
  end.

Definition partial_cmp_ast (v : data.Value) (l : AstValue) : option comparison :=
  match clone_by_literal v l with
  | Ok w => partial_cmp v w
  | Err _ => None
  end.

Definition int_op (f : Z -> Z -> Z) (a b : data.Value) : result data.Value :=
  match a, b with
  | data.I64 a, data.I64 b => Ok (data.I64 (I64.wrap (f a b)))
  | _, _ => Err num_err
  end.

Definition divide (a b : data.Value) : result data.Value :=
  match a, b with
  | data.I64 _, data.I64 0 => Err (ValueError "divide by zero")
  | data.I64 a, data.I64 b => Ok (data.I64 (I64.wrap (Z.quot a b)))
  | _, _ => Err num_err
  end.

#[export] Instance ops : ValueOps := {|
  value_eq := value_eqb;
  value_eq_ast := value_eqb_ast;
  value_partial_cmp := partial_cmp;
  value_partial_cmp_ast := partial_cmp_ast;
  value_add := int_op Z.add;
  value_subtract := int_op Z.sub;
  value_multiply := int_op Z.mul;
  value_divide := divide;
  clone_by := clone_by_literal
|}.

End ValueModel.

(** ** Shorthands for the two ownership modes *)

(** A literal operand, borrowed ([owned = false]) or owned ([owned = true]). *)
Definition literal_of (owned : bool) (l : AstValue) : Evaluated :=
  if owned then Literal l else LiteralRef l.

(** A typed operand, borrowed ([owned = false]) or owned ([owned = true]). *)
Definition typed_of (owned : bool) (v : data.Value) : Evaluated :=
  if owned then Value v else ValueRef v.

(** The pairs of operands that [Evaluated::eq] marks unreachable with a
    bare [panic!()]: an owned literal against a literal or an owned value. *)
Definition eq_excluded (a b : Evaluated) : bool :=
  match a, b with
  | LiteralRef _, Literal _ | Value _, Literal _ => true
  | Literal _, LiteralRef _ | Literal _, Literal _ | Literal _, Value _ => true
  | _, _ => false
  end.

(** Whether both literals are numeric-text literals. *)
Definition both_numbers (l r : AstValue) : bool :=
  match l, r with
  | Number _, Number _ => true
  | _, _ => false
  end.

(** Whether an operand is owned ([Literal] or [Value]). *)
Definition owned (e : Evaluated) : bool :=
  match e with
  | Literal _ | Value _ => true
  | _ => false
  end.

(** Whether an operand is an owned literal. *)
Definition owned_literal (e : Evaluated) : bool :=
  match e with
  | Literal _ => true
  | _ => false
  end.

(** The literal node of a literal operand, borrowed or owned. *)
Definition literal_operand (e : Evaluated) : option AstValue :=
  match e with
  | LiteralRef l | Literal l => Some l
  | _ => None
  end.

(** The value of a big-endian decimal digit string, read from left to
    right onto [acc]; the reading [i64::to_string]'s digits get back. *)
Fixpoint horner (acc : Z) (d : Decimal.uint) : Z :=
  match d with
  | Decimal.Nil => acc
  | Decimal.D0 d => horner (acc * 10) d
  | Decimal.D1 d => horner (acc * 10 + 1) d
  | Decimal.D2 d => horner (acc * 10 + 2) d
  | Decimal.D3 d => horner (acc * 10 + 3) d
  | Decimal.D4 d => horner (acc * 10 + 4) d
  | Decimal.D5 d => horner (acc * 10 + 5) d
  | Decimal.D6 d => horner (acc * 10 + 6) d
  | Decimal.D7 d => horner (acc * 10 + 7) d
  | Decimal.D8 d => horner (acc * 10 + 8) d
  | Decimal.D9 d => horner (acc * 10 + 9) d
  end.


(** * Properties *)

(** ** Runs on concrete inputs *)

Example ex_add : Evaluated.add (VO := ValueModel.ops) true (LiteralRef (Number "2"))
  (LiteralRef (Number "3")) = Ret (Ok (Literal (Number "5"))).
Proof. vm_compute. reflexivity. Qed.
Example ex_sub : Evaluated.subtract (VO := ValueModel.ops) true (LiteralRef (Number "2"))
  (LiteralRef (Number "3")) = Ret (Ok (Literal (Number "-1"))).
Proof. vm_compute. reflexivity. Qed.
Example ex_div : Evaluated.divide (VO := ValueModel.ops) (LiteralRef (Number "2"))
  (LiteralRef (Number "3")) = Ret (Ok (Literal (Number "0"))).
Proof. vm_compute. reflexivity. Qed.
Example ex_div0 : Evaluated.divide (VO := ValueModel.ops) (LiteralRef (Number "1"))
  (LiteralRef (Number "0")) = Panic.
Proof. vm_compute. reflexivity. Qed.
Example ex_min : I64.parse "-9223372036854775808" = Some I64.MIN /\
  I64.parse "9223372036854775808" = None /\ I64.parse "-" = None /\ I64.parse "+07" = Some 7 /\ I64.parse "1.5" = None.
Proof. vm_compute. repeat split. Qed.
Example ex_cmp : Evaluated.partial_cmp (VO := ValueModel.ops) (LiteralRef (Number "2"))
  (LiteralRef (Number "5")) = Ret (Some Lt).
Proof. vm_compute. reflexivity. Qed.


(** ** Helper facts *)

Lemma AstValue_eqb_sym : forall a b, AstValue_eqb a b = AstValue_eqb b a.
Proof.
  destruct a, b; simpl; try reflexivity; apply String.eqb_sym.
Qed.

Lemma Z_compare_lt_gt : forall x y, Z.compare x y = Lt -> Z.compare y x = Gt.
Proof. intros x y H. rewrite Z.compare_antisym, H. reflexivity. Qed.

Lemma string_compare_lt_gt :
  forall s t, String.compare s t = Lt -> String.compare t s = Gt.
Proof. intros s t H. rewrite String.compare_antisym, H. reflexivity. Qed.

Lemma literal_partial_cmp_lt_gt :
  forall l r, literal_partial_cmp l r = Some Lt -> literal_partial_cmp r l = Some Gt.
Proof.
  intros [a| a | a | a | a |] [b| b | b | b | b |]; simpl; try discriminate.
  - destruct (I64.parse a), (I64.parse b); try discriminate.
    intros H; injection H as H. rewrite (Z_compare_lt_gt _ _ H). reflexivity.
  - intros H; injection H as H. rewrite (string_compare_lt_gt _ _ H). reflexivity.
Qed.


Section Properties.

Context {VO : ValueOps}.

(** C6: for each of [add], [subtract], [multiply] and [divide], and every
    operand paired with a [StringRef] on either side, the operation returns
    the [UnreachableEvaluatedArithmetic] error, never a value. *)
Theorem string_operand_arithmetic_unreachable :
  forall (overflow_checks : bool) (s : string) (e : Evaluated),
    let err := Ret (Err (Evaluate UnreachableEvaluatedArithmetic)) in
    Evaluated.add overflow_checks (StringRef s) e = err /\
    Evaluated.add overflow_checks e (StringRef s) = err /\
    Evaluated.subtract overflow_checks (StringRef s) e = err /\
    Evaluated.subtract overflow_checks e (StringRef s) = err /\
    Evaluated.multiply overflow_checks (StringRef s) e = err /\
    Evaluated.multiply overflow_checks e (StringRef s) = err /\
    Evaluated.divide (StringRef s) e = err /\
    Evaluated.divide e (StringRef s) = err.
Proof.
  intros overflow_checks s e err.
  destruct e; repeat split; reflexivity.
Qed.

(** C5 (amended): an owned literal compared by [eq] against an owned or a
    borrowed literal, in either position, hits the unreachable [panic!()];
    against a [StringRef], in either position, [eq] returns [false]. *)
Theorem owned_literal_eq_faults :
  forall (l r : AstValue) (s : string),
    Evaluated.eq (Literal l) (Literal r) = Panic /\
    Evaluated.eq (Literal l) (LiteralRef r) = Panic /\
    Evaluated.eq (LiteralRef r) (Literal l) = Panic /\
    Evaluated.eq (Literal l) (StringRef s) = Ret false /\
    Evaluated.eq (StringRef s) (Literal l) = Ret false.
Proof. intros; repeat split. Qed.

(** C3 (amended): a typed operand, borrowed or owned, compared against a
    typed operand or a borrowed literal takes the typed domain's own partial
    order ([None] where that order is undefined); against an owned literal
    [partial_cmp] hits the unreachable [panic!()]. *)
Theorem typed_partial_cmp_delegates :
  forall (o1 o2 : bool) (v w : data.Value) (l : AstValue),
    Evaluated.partial_cmp (typed_of o1 v) (typed_of o2 w) = Ret (value_partial_cmp v w) /\
    Evaluated.partial_cmp (typed_of o1 v) (LiteralRef l) = Ret (value_partial_cmp_ast v l) /\
    Evaluated.partial_cmp (typed_of o1 v) (Literal l) = Panic.
Proof. intros [|] [|] v w l; repeat split. Qed.

(** C4 (amended): a [StringRef] compares lexicographically against another
    [StringRef] or a text value (borrowed or owned, in either position), and
    is incomparable ([None]) with any other typed value and with a borrowed
    literal, in either position; against an owned literal, in either
    position, [partial_cmp] hits the unreachable [panic!()]. *)
Theorem string_ref_partial_cmp :
  forall (o : bool) (s r : string) (v : data.Value) (l : AstValue),
    Evaluated.partial_cmp (StringRef s) (StringRef r) = Ret (Some (String.compare s r)) /\
    Evaluated.partial_cmp (StringRef s) (typed_of o v) =
      Ret (match v with data.Str t => Some (String.compare s t) | _ => None end) /\
    Evaluated.partial_cmp (typed_of o v) (StringRef s) =
      Ret (match v with data.Str t => Some (String.compare t s) | _ => None end) /\
    Evaluated.partial_cmp (StringRef s) (LiteralRef l) = Ret None /\
    Evaluated.partial_cmp (LiteralRef l) (StringRef s) = Ret None /\
    Evaluated.partial_cmp (StringRef s) (Literal l) = Panic /\
    Evaluated.partial_cmp (Literal l) (StringRef s) = Panic.
Proof. intros [|] s r [] l; repeat split. Qed.

End Properties.

(** Closes one case of the antisymmetry proof of [partial_cmp]. *)
Ltac anti_finish anti H :=
  unfold str_partial_cmp in *;
  match type of H with
  | option_map CompOpp ?x = Some Lt =>
      destruct x as [[]|]; simpl in H; try discriminate; reflexivity
  | String.compare _ _ = Lt =>
      rewrite (string_compare_lt_gt _ _ H); reflexivity
  | literal_partial_cmp _ _ = Some Lt =>
      rewrite (literal_partial_cmp_lt_gt _ _ H); reflexivity
  | value_partial_cmp _ _ = Some Lt =>
      rewrite (anti _ _ H); reflexivity
  | value_partial_cmp_ast _ _ = Some Lt =>
      rewrite H; reflexivity
  end.

Section Relations.

Context {VO : ValueOps}.

(** C9: borrowed literals are compared by [literal_partial_cmp]: two
    numeric-text literals by their [i64] values, absent when either text
    does not parse as an [i64]; two single-quoted string literals
    lexicographically by their text; every other pair of literal kinds is
    absent. *)
Theorem literal_literal_partial_cmp :
  forall (a b : string) (l r : AstValue),
    Evaluated.partial_cmp (LiteralRef l) (LiteralRef r) = Ret (literal_partial_cmp l r) /\
    (literal_partial_cmp (Number a) (Number b) = None <->
       I64.parse a = None \/ I64.parse b = None) /\
    (forall c, literal_partial_cmp (Number a) (Number b) = Some c <->
       exists x y, I64.parse a = Some x /\ I64.parse b = Some y /\ Z.compare x y = c) /\
    literal_partial_cmp (SingleQuotedString a) (SingleQuotedString b) =
      Some (String.compare a b) /\
    (literal_partial_cmp l r <> None ->
       (exists x y, l = Number x /\ r = Number y) \/
       (exists x y, l = SingleQuotedString x /\ r = SingleQuotedString y)).
Proof.
  intros a b l r. split; [reflexivity|]. split; [|split; [|split]].
  - simpl. destruct (I64.parse a), (I64.parse b); split; intros H;
      try discriminate; try reflexivity; auto.
    destruct H; discriminate.
  - intros c. simpl. split.
    + destruct (I64.parse a) as [x|], (I64.parse b) as [y|]; intros H;
        try discriminate.
      injection H as H. exists x, y. auto.
    + intros (x & y & Ha & Hb & Hc). rewrite Ha, Hb, Hc. reflexivity.
  - reflexivity.
  - destruct l, r; simpl; intros H; try (exfalso; apply H; reflexivity); eauto.
Qed.

(** C7: equality is symmetric on every pair the evaluator can reach.  The
    pairs [eq] marks unreachable ([eq_excluded]: an owned literal against a
    literal or an owned value) are exactly the pairs on which it panics,
    they form a symmetric set, and on all other pairs [eq a b] and [eq b a]
    return the same boolean, given a symmetric typed-domain equality. *)
Theorem eq_symmetric_on_reachable
    (value_eq_sym : forall v w, value_eq v w = value_eq w v) :
  (forall a b, Evaluated.eq a b = Panic <-> eq_excluded a b = true) /\
  (forall a b, eq_excluded a b = eq_excluded b a) /\
  (forall a b, eq_excluded a b = false -> Evaluated.eq a b = Evaluated.eq b a).
Proof.
  split; [|split].
  - intros [] []; simpl; split; intros H; try discriminate; reflexivity.
  - intros [] []; reflexivity.
  - intros [] [] H; simpl in *; try discriminate;
      try rewrite AstValue_eqb_sym; try rewrite String.eqb_sym;
      try rewrite value_eq_sym; reflexivity.
Qed.

(** C8: wherever [partial_cmp a b] is [Some Less], [partial_cmp b a] is
    [Some Greater] (given the typed domain's own order has this property);
    a borrowed literal against a typed value is the typed side's comparison
    reversed; and the literals ["2"] and ["5"] compare [Less] one way and
    [Greater] the other. *)
Theorem partial_cmp_antisymmetric
    (value_cmp_anti : forall v w,
       value_partial_cmp v w = Some Lt -> value_partial_cmp w v = Some Gt) :
  (forall a b, Evaluated.partial_cmp a b = Ret (Some Lt) ->
               Evaluated.partial_cmp b a = Ret (Some Gt)) /\
  (forall o l v, Evaluated.partial_cmp (LiteralRef l) (typed_of o v) =
     exec_map (option_map CompOpp) (Evaluated.partial_cmp (typed_of o v) (LiteralRef l))) /\
  Evaluated.partial_cmp (LiteralRef (Number "2")) (LiteralRef (Number "5")) = Ret (Some Lt) /\
  Evaluated.partial_cmp (LiteralRef (Number "5")) (LiteralRef (Number "2")) = Ret (Some Gt).
Proof.
  split; [|split; [|split]].
  - intros a b.
    destruct a, b;
      repeat match goal with v : data.Value |- _ => destruct v end;
      simpl; intros H; try discriminate; injection H as H;
      anti_finish value_cmp_anti H.
  - intros [|] l v; simpl; reflexivity.
  - vm_compute. reflexivity.
  - vm_compute. reflexivity.
Qed.

End Relations.

Lemma checked_in_range :
  forall oc z, I64.in_range z = true -> I64.checked oc z = Ret z.
Proof. intros oc z H. unfold I64.checked. rewrite H. reflexivity. Qed.

Lemma div_in_range :
  forall x y, y <> 0 -> I64.in_range (Z.quot x y) = true -> I64.div x y = Ret (Z.quot x y).
Proof.
  intros x y Hy Hr. unfold I64.div.
  destruct (Z.eqb_spec y 0) as [|_]; [contradiction|].
  destruct (Z.eqb_spec x I64.MIN) as [->|]; destruct (Z.eqb_spec y (-1)) as [->|];
    simpl; try reflexivity.
  vm_compute in Hr. discriminate.
Qed.

Section Arithmetic.

Context {VO : ValueOps}.

(** C2 (amended): for numeric-text literal operands, borrowed or owned,
    whose texts parse as [i64] values [x] and [y], each operation whose
    [i64] result is in range (for [divide], with [y] nonzero) returns an
    owned numeric-text literal holding the decimal text of the result:
    [x + y], [x - y], [x * y], and [x / y] truncated toward zero. *)
Theorem literal_arithmetic_in_range :
  forall (oc o1 o2 : bool) (a b : string) (x y : Z),
    I64.parse a = Some x -> I64.parse b = Some y ->
    (I64.in_range (x + y) = true ->
       Evaluated.add oc (literal_of o1 (Number a)) (literal_of o2 (Number b)) =
       Ret (Ok (Literal (Number (I64.to_string (x + y)))))) /\
    (I64.in_range (x - y) = true ->
       Evaluated.subtract oc (literal_of o1 (Number a)) (literal_of o2 (Number b)) =
       Ret (Ok (Literal (Number (I64.to_string (x - y)))))) /\
    (I64.in_range (x * y) = true ->
       Evaluated.multiply oc (literal_of o1 (Number a)) (literal_of o2 (Number b)) =
       Ret (Ok (Literal (Number (I64.to_string (x * y)))))) /\
    (y <> 0 -> I64.in_range (Z.quot x y) = true ->
       Evaluated.divide (literal_of o1 (Number a)) (literal_of o2 (Number b)) =
       Ret (Ok (Literal (Number (I64.to_string (Z.quot x y)))))).
Proof.
  intros oc o1 o2 a b x y Ha Hb.
  repeat split; intros; destruct o1, o2; simpl;
    unfold literal_add, literal_subtract, literal_multiply, literal_divide;
    rewrite Ha, Hb;
    unfold I64.add, I64.sub, I64.mul;
    first [rewrite checked_in_range by assumption | rewrite div_in_range by assumption];
    reflexivity.
Qed.

(** C10 (amended): the literal helpers return [UnreachableLiteralArithmetic]
    unless both operands are numeric-text literals; with two numeric-text
    literals of which one does not parse as an [i64] they panic; with two
    parsed values [x] and [y], [add], [subtract] and [multiply] return the
    result's text when it is in range, and out of range panic with overflow
    checks and wrap without them; [divide] by a nonzero [y] returns the
    truncated quotient's text except for [i64::MIN / -1], which panics. *)
Theorem literal_helpers_outcomes :
  forall oc : bool,
    (forall l r, both_numbers l r = false ->
       literal_add oc l r = Ret (Err (Evaluate UnreachableLiteralArithmetic)) /\
       literal_subtract oc l r = Ret (Err (Evaluate UnreachableLiteralArithmetic)) /\
       literal_multiply oc l r = Ret (Err (Evaluate UnreachableLiteralArithmetic)) /\
       literal_divide l r = Ret (Err (Evaluate UnreachableLiteralArithmetic))) /\
    (forall a b, (I64.parse a = None \/ I64.parse b = None) ->
       literal_add oc (Number a) (Number b) = Panic /\
       literal_subtract oc (Number a) (Number b) = Panic /\
       literal_multiply oc (Number a) (Number b) = Panic /\
       literal_divide (Number a) (Number b) = Panic) /\
    (forall a b x y, I64.parse a = Some x -> I64.parse b = Some y ->
       (forall (op : Z -> Z -> Z)
               (helper : bool -> AstValue -> AstValue -> exec (result AstValue)),
          (op = Z.add /\ helper = literal_add) \/
          (op = Z.sub /\ helper = literal_subtract) \/
          (op = Z.mul /\ helper = literal_multiply) ->
          helper oc (Number a) (Number b) =
          if I64.in_range (op x y) then Ret (Ok (Number (I64.to_string (op x y))))
          else if oc then Panic
          else Ret (Ok (Number (I64.to_string (I64.wrap (op x y)))))) /\
       (y <> 0 ->
          literal_divide (Number a) (Number b) =
          if (x =? I64.MIN) && (y =? -1) then Panic
          else Ret (Ok (Number (I64.to_string (Z.quot x y)))))).
Proof.
  intros oc. split; [|split].
  - intros [] [] H; try discriminate H; repeat split.
  - intros a b H.
    unfold literal_add, literal_subtract, literal_multiply, literal_divide.
    destruct H as [H|H]; rewrite H;
      [|destruct (I64.parse a)]; repeat split.
  - intros a b x y Ha Hb. split.
    + intros op helper [(-> & ->) | [(-> & ->) | (-> & ->)]];
        unfold literal_add, literal_subtract, literal_multiply;
        rewrite Ha, Hb; unfold I64.add, I64.sub, I64.mul, I64.checked;
        destruct (I64.in_range _), oc; reflexivity.
    + intros Hy. unfold literal_divide. rewrite Ha, Hb. unfold I64.div.
      destruct (Z.eqb_spec y 0); [contradiction|].
      destruct ((x =? I64.MIN) && (y =? -1)); reflexivity.
Qed.

(** C1 (code defect): dividing a numeric-text literal, borrowed or owned,
    by the literal ["0"], borrowed or owned, panics in [literal_divide]
    (Rust's [i64] division by zero when the dividend parses, the
    parse-failure [panic!()] otherwise) instead of returning an error; a
    typed divisor is handed to the typed domain's [divide], whose result,
    an error included, is returned unchanged. *)
Theorem literal_divide_by_zero_panics :
  forall (o1 o2 : bool) (a : string),
    Evaluated.divide (literal_of o1 (Number a)) (literal_of o2 (Number "0")) = Panic /\
    (forall (l : AstValue) (w : data.Value),
       Evaluated.divide (literal_of o1 l) (typed_of o2 w) =
       Ret (try_bind (clone_by w l) (fun c => result_map Value (value_divide c w)))).
Proof.
  intros o1 o2 a. split.
  - destruct o1, o2; simpl; unfold literal_divide;
      destruct (I64.parse a); reflexivity.
  - intros l w. destruct o1, o2; reflexivity.
Qed.

End Arithmetic.

(** ** The typed-domain model meets the hypotheses *)

Lemma model_eq_sym :
  forall v w, ValueModel.value_eqb v w = ValueModel.value_eqb w v.
Proof.
  intros [a|a|a|] [b|b|b|]; simpl; try reflexivity.
  - destruct a, b; reflexivity.
  - apply Z.eqb_sym.
  - apply String.eqb_sym.
Qed.

Lemma model_cmp_anti :
  forall v w, ValueModel.partial_cmp v w = Some Lt -> ValueModel.partial_cmp w v = Some Gt.
Proof.
  intros [a|a|a|] [b|b|b|]; simpl; intros H; try discriminate; injection H as H.
  - rewrite (Z_compare_lt_gt _ _ H). reflexivity.
  - rewrite (string_compare_lt_gt _ _ H). reflexivity.
Qed.

(** ** Witnesses *)

Lemma literal_arithmetic_in_range_witness :
  Evaluated.add (VO := ValueModel.ops) true
    (LiteralRef (Number "2"))
  (LiteralRef (Number "3")) = Ret (Ok (Literal (Number "5"))) /\
  Evaluated.subtract (VO := ValueModel.ops) true
    (LiteralRef (Number "2"))
  (LiteralRef (Number "3")) = Ret (Ok (Literal (Number "-1"))) /\
  Evaluated.multiply (VO := ValueModel.ops) true
    (LiteralRef (Number "2"))
  (LiteralRef (Number "3")) = Ret (Ok (Literal (Number "6"))) /\
  Evaluated.divide (VO := ValueModel.ops)
    (LiteralRef (Number "2"))
  (LiteralRef (Number "3")) = Ret (Ok (Literal (Number "0"))).
Proof.
  destruct (literal_arithmetic_in_range (VO := ValueModel.ops) true false false
              "2" "3" 2 3 eq_refl eq_refl) as (Hadd & Hsub & Hmul & Hdiv).
  cbn [literal_of] in Hadd, Hsub, Hmul, Hdiv.
  split; [rewrite Hadd by reflexivity; reflexivity|].
  split; [rewrite Hsub by reflexivity; reflexivity|].
  split; [rewrite Hmul by reflexivity; reflexivity|].
  rewrite Hdiv by (try lia; reflexivity). reflexivity.
Defined.

Lemma literal_helpers_outcomes_witness :
  both_numbers (SingleQuotedString "a") (Number "1") = false /\
  literal_add true (SingleQuotedString "a") (Number "1") =
    Ret (Err (Evaluate UnreachableLiteralArithmetic)) /\
  literal_add true (Number "1.5") (Number "1") = Panic /\
  literal_add true (Number "9223372036854775807") (Number "1") = Panic /\
  literal_add false (Number "9223372036854775807") (Number "1") =
    Ret (Ok (Number "-9223372036854775808")) /\
  literal_divide (Number "7") (Number "-2") = Ret (Ok (Number "-3")).
Proof.
  destruct (literal_helpers_outcomes true) as (Hkind & Hparse & Hnum).
  destruct (literal_helpers_outcomes false) as (_ & _ & Hnum').
  split; [reflexivity|].
  split; [apply Hkind; reflexivity|].
  split; [apply (Hparse "1.5"%string "1"%string); left; vm_compute; reflexivity|].
  split.
  { rewrite (proj1 (Hnum "9223372036854775807"%string "1"%string I64.MAX 1 eq_refl eq_refl) Z.add literal_add)
      by (left; split; reflexivity).
    vm_compute. reflexivity. }
  split.
  { rewrite (proj1 (Hnum' "9223372036854775807"%string "1"%string I64.MAX 1 eq_refl eq_refl) Z.add literal_add)
      by (left; split; reflexivity).
    vm_compute. reflexivity. }
  rewrite (proj2 (Hnum "7"%string "-2"%string 7 (-2) eq_refl eq_refl)) by lia.
  vm_compute. reflexivity.
Defined.

Lemma literal_literal_partial_cmp_witness :
  literal_partial_cmp (Number "2") (Number "5") <> None /\
  ((exists x y, Number "2" = Number x /\ Number "5" = Number y) \/
   (exists x y, Number "2" = SingleQuotedString x /\ Number "5" = SingleQuotedString y)) /\
  literal_partial_cmp (Number "2") (Number "5") = Some Lt.
Proof.
  destruct (literal_literal_partial_cmp (VO := ValueModel.ops) "2" "5" (Number "2") (Number "5"))
    as (_ & _ & Hnum & _ & Hkind).
  split; [vm_compute; discriminate|].
  split; [apply Hkind; vm_compute; discriminate|].
  apply (proj2 (Hnum Lt)). exists 2, 5. vm_compute. auto.
Defined.

Lemma eq_symmetric_on_reachable_witness :
  (forall v w, ValueModel.value_eqb v w = ValueModel.value_eqb w v) /\
  eq_excluded (ValueRef (data.I64 3)) (LiteralRef (Number "3")) = false /\
  Evaluated.eq (VO := ValueModel.ops) (LiteralRef (Number "3")) (ValueRef (data.I64 3)) = Ret true.
Proof.
  split; [exact model_eq_sym|]. split; [reflexivity|].
  destruct (eq_symmetric_on_reachable (VO := ValueModel.ops) model_eq_sym) as (_ & _ & Hsym).
  rewrite <- Hsym by reflexivity. vm_compute. reflexivity.
Defined.

Lemma partial_cmp_antisymmetric_witness :
  (forall v w, ValueModel.partial_cmp v w = Some Lt -> ValueModel.partial_cmp w v = Some Gt) /\
  Evaluated.partial_cmp (VO := ValueModel.ops) (ValueRef (data.I64 1)) (Value (data.I64 2)) = Ret (Some Lt) /\
  Evaluated.partial_cmp (VO := ValueModel.ops) (Value (data.I64 2)) (ValueRef (data.I64 1)) = Ret (Some Gt).
Proof.
  split; [exact model_cmp_anti|].
  destruct (partial_cmp_antisymmetric (VO := ValueModel.ops) model_cmp_anti) as (Hanti & _).
  assert (H : Evaluated.partial_cmp (VO := ValueModel.ops)
                (ValueRef (data.I64 1)) (Value (data.I64 2)) = Ret (Some Lt))
    by (vm_compute; reflexivity).
  split; [exact H | exact (Hanti _ _ H)].
Defined.

(** ** Counterexamples *)

(** C2: [i64::MIN / -1] on two parsed numeric-text literals is no literal:
    it panics. *)
Lemma literal_arithmetic_counterexample :
  ~ (forall a b x y, I64.parse a = Some x -> I64.parse b = Some y ->
       exists s, Evaluated.divide (VO := ValueModel.ops)
                   (LiteralRef (Number a)) (LiteralRef (Number b)) =
                 Ret (Ok (Literal (Number s)))).
Proof.
  intros H.
  destruct (H "-9223372036854775808"%string "-1"%string I64.MIN (-1) eq_refl eq_refl) as [s Hs].
  vm_compute in Hs. discriminate.
Qed.

(** C3: a typed value against an owned literal panics in [partial_cmp]. *)
Lemma typed_owned_literal_cmp_counterexample :
  Evaluated.partial_cmp (VO := ValueModel.ops) (ValueRef (data.I64 1)) (Literal (Number "1")) = Panic /\
  Evaluated.partial_cmp (VO := ValueModel.ops) (Value (data.I64 1)) (Literal (Number "1")) = Panic.
Proof. split; reflexivity. Qed.

(** C4: a [StringRef] against an owned literal panics in [partial_cmp]. *)
Lemma string_ref_owned_literal_cmp_counterexample :
  Evaluated.partial_cmp (VO := ValueModel.ops) (StringRef "abc") (Literal (SingleQuotedString "abc")) = Panic /\
  Evaluated.partial_cmp (VO := ValueModel.ops) (Literal (SingleQuotedString "abc")) (StringRef "abc") = Panic.
Proof. split; reflexivity. Qed.

(** C5: an owned literal against a [StringRef] is an ordinary [false]. *)
Lemma owned_literal_string_ref_eq_counterexample :
  Evaluated.eq (VO := ValueModel.ops) (Literal (SingleQuotedString "abc")) (StringRef "abc") = Ret false /\
  Evaluated.eq (VO := ValueModel.ops) (StringRef "abc") (Literal (SingleQuotedString "abc")) = Ret false.
Proof. split; reflexivity. Qed.

(** C10: both texts parse, the divisor is nonzero, and [literal_divide]
    still panics ([i64::MIN / -1] overflows). *)
Lemma literal_divide_overflow_counterexample :
  I64.parse "-9223372036854775808" = Some I64.MIN /\ I64.parse "-1" = Some (-1) /\
  literal_divide (Number "-9223372036854775808") (Number "-1") = Panic.
Proof. vm_compute. repeat split. Qed.

(** * Further properties of the module *)

(** ** Decimal text of an [i64] *)

Lemma of_uint_acc_horner :
  forall d p, Z.pos (Pos.of_uint_acc d p) = horner (Z.pos p) d.
Proof.
  induction d; intros p; cbn [Pos.of_uint_acc horner]; try reflexivity;
    rewrite IHd; f_equal; lia.
Qed.

Lemma of_uint_horner : forall d, Z.of_uint d = horner 0 d.
Proof.
  unfold Z.of_uint.
  induction d; simpl; try rewrite <- IHd; try reflexivity;
    apply of_uint_acc_horner.
Qed.

Lemma digits_string_of_uint :
  forall d acc, I64.digits acc (NilEmpty.string_of_uint d) = Some (horner acc d).
Proof.
  induction d; intros acc; simpl; try reflexivity; rewrite IHd;
    rewrite ?Z.add_0_r; reflexivity.
Qed.

Lemma magnitude_string_of_int :
  forall i, I64.magnitude (NilZero.string_of_int i) = Some (Z.of_int i).
Proof.
  intros [d|d]; destruct d; try reflexivity;
    unfold NilZero.string_of_int, NilZero.string_of_uint, I64.magnitude;
    cbn [Ascii.eqb Bool.eqb NilEmpty.string_of_uint];
    unfold Z.of_int; rewrite of_uint_horner;
    simpl; rewrite digits_string_of_uint; reflexivity.
Qed.

Lemma parse_to_string :
  forall z, I64.in_range z = true -> I64.parse (I64.to_string z) = Some z.
Proof.
  intros z Hr. unfold I64.parse, I64.to_string.
  rewrite magnitude_string_of_int, DecimalZ.of_to, Hr. reflexivity.
Qed.

Lemma wrap_in_range : forall z, I64.in_range (I64.wrap z) = true.
Proof.
  intros z. unfold I64.in_range, I64.wrap, I64.MIN, I64.MAX.
  pose proof (Z.mod_pos_bound (z + 2 ^ 63) (2 ^ 64) ltac:(lia)).
  apply andb_true_intro; split; apply Z.leb_le; lia.
Qed.

Lemma checked_in_range_result :
  forall oc z n, I64.checked oc z = Ret n -> I64.in_range n = true.
Proof.
  intros oc z n H. unfold I64.checked in H.
  destruct (I64.in_range z) eqn:Hz.
  - injection H as <-. exact Hz.
  - destruct oc; [discriminate|]. injection H as <-. apply wrap_in_range.
Qed.

Lemma quot_in_range :
  forall x y, I64.in_range x = true -> y <> 0 ->
    ~ (x = I64.MIN /\ y = -1) -> I64.in_range (Z.quot x y) = true.
Proof.
  intros x y Hx Hy Hmin.
  unfold I64.in_range, I64.MIN, I64.MAX in *.
  apply andb_prop in Hx as [Hx1 Hx2]. apply Z.leb_le in Hx1, Hx2.
  apply andb_true_intro; rewrite !Z.leb_le.
  assert (Habs : Z.abs (Z.quot x y) = Z.abs x / Z.abs y).
  { rewrite <- Z.quot_abs by exact Hy. apply Z.quot_div_nonneg; lia. }
  destruct (Z.eq_dec y 1) as [->|H1]; [rewrite Z.quot_1_r; lia|].
  destruct (Z.eq_dec y (-1)) as [->|H2].
  - assert (E : Z.quot x (-1) = - x).
    { change (-1) with (- (1)). rewrite Z.quot_opp_r, Z.quot_1_r by lia. reflexivity. }
    rewrite E.
    assert (x <> - 2 ^ 63) by (intros ->; apply Hmin; split; reflexivity). lia.
  - assert (Hq : Z.abs x / Z.abs y <= 2 ^ 62).
    { apply Z.le_trans with (Z.abs x / 2).
      - apply Z.div_le_compat_l; lia.
      - apply Z.div_le_upper_bound; lia. }
    lia.
Qed.

Lemma div_result_in_range :
  forall x y n, I64.in_range x = true -> I64.div x y = Ret n -> I64.in_range n = true.
Proof.
  intros x y n Hx H. unfold I64.div in H.
  destruct (Z.eqb_spec y 0); [discriminate|].
  destruct ((x =? I64.MIN) && (y =? -1)) eqn:Hm; [discriminate|].
  injection H as <-. apply quot_in_range; auto.
  intros [-> ->]. discriminate Hm.
Qed.

Lemma parse_in_range : forall s z, I64.parse s = Some z -> I64.in_range z = true.
Proof.
  intros s z H. unfold I64.parse in H.
  destruct (I64.magnitude s); [|discriminate].
  destruct (I64.in_range z0) eqn:Hr; [|discriminate]. injection H as <-. exact Hr.
Qed.

(** X1: every literal that [literal_add], [literal_subtract],
    [literal_multiply] or [literal_divide] returns is a numeric-text
    literal whose text is the decimal text of an [i64] and parses back to
    it, so a result can be fed to the next literal operation without
    reaching the parse-failure [panic!()]. *)
Theorem literal_helper_result_reparses :
  forall (oc : bool) (helper : AstValue -> AstValue -> exec (result AstValue))
         (a b r : AstValue),
    helper = literal_add oc \/ helper = literal_subtract oc \/
    helper = literal_multiply oc \/ helper = literal_divide ->
    helper a b = Ret (Ok r) ->
    exists n, r = Number (I64.to_string n) /\ I64.parse (I64.to_string n) = Some n.
Proof.
  intros oc helper a b r Hh H.
  destruct a as [a| | | | |]; destruct b as [b| | | | |];
    destruct Hh as [ -> | [ -> | [ -> | -> ]]];
    unfold literal_add, literal_subtract, literal_multiply, literal_divide in H;
    try discriminate H.
  all: destruct (I64.parse a) as [x|] eqn:Ha; destruct (I64.parse b) as [y|] eqn:Hb;
    try discriminate H.
  all: unfold I64.add, I64.sub, I64.mul in H.
  all: match type of H with
       | exec_map _ ?c = _ => destruct c as [n|] eqn:Hc; [|discriminate H]
       end.
  all: simpl in H; injection H as <-; exists n; split; [reflexivity|].
  all: apply parse_to_string;
    first [ exact (checked_in_range_result _ _ _ Hc)
          | exact (div_result_in_range _ _ _ (parse_in_range _ _ Ha) Hc) ].
Qed.

(** ** Arithmetic over [Evaluated] *)

Section ExtraArithmetic.

Context {VO : ValueOps}.

(** X2: literal arithmetic composes: for numeric-text literals [a], [b],
    [c] parsing as [x], [y], [z] with [y * z] and [x + y * z] in range,
    [b * c] gives an owned literal [m] and [a + m] gives the owned literal
    of [x + y * z], with no typed value ever built. *)
Theorem literal_arithmetic_composes :
  forall (oc : bool) (a b c : string) (x y z : Z),
    I64.parse a = Some x -> I64.parse b = Some y -> I64.parse c = Some z ->
    I64.in_range (y * z) = true -> I64.in_range (x + y * z) = true ->
    exists m,
      Evaluated.multiply oc (LiteralRef (Number b)) (LiteralRef (Number c)) = Ret (Ok m) /\
      Evaluated.add oc (LiteralRef (Number a)) m =
        Ret (Ok (Literal (Number (I64.to_string (x + y * z))))).
Proof.
  intros oc a b c x y z Ha Hb Hc Hyz Hsum.
  exists (Literal (Number (I64.to_string (y * z)))). split.
  - simpl. unfold literal_multiply. rewrite Hb, Hc. unfold I64.mul.
    rewrite checked_in_range by exact Hyz. reflexivity.
  - simpl. unfold literal_add. rewrite Ha, parse_to_string by exact Hyz.
    unfold I64.add. rewrite checked_in_range by exact Hsum. reflexivity.
Qed.

(** X3: a successful arithmetic result is always owned ([Literal] or
    [Value]), never a borrowed variant, for each of the four operations. *)
Theorem arithmetic_result_owned :
  forall (oc : bool) (a b e : Evaluated),
    (Evaluated.add oc a b = Ret (Ok e) -> owned e = true) /\
    (Evaluated.subtract oc a b = Ret (Ok e) -> owned e = true) /\
    (Evaluated.multiply oc a b = Ret (Ok e) -> owned e = true) /\
    (Evaluated.divide a b = Ret (Ok e) -> owned e = true).
Proof.
  intros oc a b e.
  repeat split; intros H; destruct a, b; simpl in H;
    try discriminate H;
    repeat match type of H with
    | context [exec_map _ ?c] => destruct c as [[]|]; simpl in H; try discriminate H
    | context [try_bind ?c _] => destruct c; simpl in H; try discriminate H
    | context [result_map _ ?c] => destruct c; simpl in H; try discriminate H
    end;
    injection H as <-; reflexivity.
Qed.

(** X4: arithmetic does not depend on ownership: on either side, a
    borrowed and an owned literal of the same node, and a borrowed and an
    owned value of the same value, give the same outcome, for each of the
    four operations. *)
Theorem arithmetic_ownership_irrelevant :
  forall (oc : bool) (l : AstValue) (v : data.Value) (e : Evaluated),
    Evaluated.add oc (LiteralRef l) e = Evaluated.add oc (Literal l) e /\
    Evaluated.add oc e (LiteralRef l) = Evaluated.add oc e (Literal l) /\
    Evaluated.add oc (ValueRef v) e = Evaluated.add oc (Value v) e /\
    Evaluated.add oc e (ValueRef v) = Evaluated.add oc e (Value v) /\
    Evaluated.subtract oc (LiteralRef l) e = Evaluated.subtract oc (Literal l) e /\
    Evaluated.subtract oc e (LiteralRef l) = Evaluated.subtract oc e (Literal l) /\
    Evaluated.subtract oc (ValueRef v) e = Evaluated.subtract oc (Value v) e /\
    Evaluated.subtract oc e (ValueRef v) = Evaluated.subtract oc e (Value v) /\
    Evaluated.multiply oc (LiteralRef l) e = Evaluated.multiply oc (Literal l) e /\
    Evaluated.multiply oc e (LiteralRef l) = Evaluated.multiply oc e (Literal l) /\
    Evaluated.multiply oc (ValueRef v) e = Evaluated.multiply oc (Value v) e /\
    Evaluated.multiply oc e (ValueRef v) = Evaluated.multiply oc e (Value v) /\
    Evaluated.divide (LiteralRef l) e = Evaluated.divide (Literal l) e /\
    Evaluated.divide e (LiteralRef l) = Evaluated.divide e (Literal l) /\
    Evaluated.divide (ValueRef v) e = Evaluated.divide (Value v) e /\
    Evaluated.divide e (ValueRef v) = Evaluated.divide e (Value v).
Proof. intros oc l v []; repeat split. Qed.

(** X5: arithmetic can panic only when both operands are literals
    (borrowed or owned) holding numeric text; an operation with a typed or
    a [StringRef] operand never panics. *)
Theorem arithmetic_panics_only_on_numeric_literals :
  forall (oc : bool) (a b : Evaluated),
    (Evaluated.add oc a b = Panic \/ Evaluated.subtract oc a b = Panic \/
     Evaluated.multiply oc a b = Panic \/ Evaluated.divide a b = Panic) ->
    exists l r, literal_operand a = Some l /\ literal_operand b = Some r /\
                both_numbers l r = true.
Proof.
  intros oc a b H.
  destruct a as [l|l|s|v|v], b as [r|r|t|w|w]; simpl in H;
    try (exfalso; destruct H as [H|[H|[H|H]]]; discriminate H).
  all: exists l, r; split; [reflexivity|split; [reflexivity|]].
  all: destruct l, r; try reflexivity; exfalso;
    unfold literal_add, literal_subtract, literal_multiply, literal_divide in H;
    destruct H as [H|[H|[H|H]]]; discriminate H.
Qed.

(** X6: two literal operands (borrowed or owned) that are not both
    numeric-text literals make each of the four operations return the
    [UnreachableLiteralArithmetic] error. *)
Theorem arithmetic_non_numeric_literals :
  forall (oc o1 o2 : bool) (l r : AstValue),
    both_numbers l r = false ->
    let err := Ret (Err (Evaluate UnreachableLiteralArithmetic)) in
    Evaluated.add oc (literal_of o1 l) (literal_of o2 r) = err /\
    Evaluated.subtract oc (literal_of o1 l) (literal_of o2 r) = err /\
    Evaluated.multiply oc (literal_of o1 l) (literal_of o2 r) = err /\
    Evaluated.divide (literal_of o1 l) (literal_of o2 r) = err.
Proof.
  intros oc o1 o2 l r H err.
  destruct o1, o2, l, r; try discriminate H; repeat split.
Qed.

(** X7: when a literal cannot be coerced into the type of its typed peer
    ([clone_by] fails with [e]), each of the four operations, with the
    literal on either side, returns that same error [e]. *)
Theorem coercion_error_propagates :
  forall (oc o1 o2 : bool) (l : AstValue) (v : data.Value) (e : Error),
    clone_by v l = Err e ->
    Evaluated.add oc (literal_of o1 l) (typed_of o2 v) = Ret (Err e) /\
    Evaluated.add oc (typed_of o2 v) (literal_of o1 l) = Ret (Err e) /\
    Evaluated.subtract oc (literal_of o1 l) (typed_of o2 v) = Ret (Err e) /\
    Evaluated.subtract oc (typed_of o2 v) (literal_of o1 l) = Ret (Err e) /\
    Evaluated.multiply oc (literal_of o1 l) (typed_of o2 v) = Ret (Err e) /\
    Evaluated.multiply oc (typed_of o2 v) (literal_of o1 l) = Ret (Err e) /\
    Evaluated.divide (literal_of o1 l) (typed_of o2 v) = Ret (Err e) /\
    Evaluated.divide (typed_of o2 v) (literal_of o1 l) = Ret (Err e).
Proof.
  intros oc o1 o2 l v e H.
  destruct o1, o2; simpl; rewrite H; repeat split.
Qed.

(** X8: once the literal is coerced to [c] by its typed peer [v],
    [subtract], [multiply] and [divide] keep the literal in its operand
    position ([c - v] or [v - c], ...), while [add] always computes with
    the typed operand as receiver ([v + c]), whichever side the literal was
    on. *)
Theorem coercion_operand_order :
  forall (oc o1 o2 : bool) (l : AstValue) (v c : data.Value),
    clone_by v l = Ok c ->
    Evaluated.add oc (literal_of o1 l) (typed_of o2 v) = Ret (result_map Value (value_add v c)) /\
    Evaluated.add oc (typed_of o2 v) (literal_of o1 l) = Ret (result_map Value (value_add v c)) /\
    Evaluated.subtract oc (literal_of o1 l) (typed_of o2 v) = Ret (result_map Value (value_subtract c v)) /\
    Evaluated.subtract oc (typed_of o2 v) (literal_of o1 l) = Ret (result_map Value (value_subtract v c)) /\
    Evaluated.multiply oc (literal_of o1 l) (typed_of o2 v) = Ret (result_map Value (value_multiply c v)) /\
    Evaluated.multiply oc (typed_of o2 v) (literal_of o1 l) = Ret (result_map Value (value_multiply v c)) /\
    Evaluated.divide (literal_of o1 l) (typed_of o2 v) = Ret (result_map Value (value_divide c v)) /\
    Evaluated.divide (typed_of o2 v) (literal_of o1 l) = Ret (result_map Value (value_divide v c)).
Proof.
  intros oc o1 o2 l v c H.
  destruct o1, o2; simpl; rewrite H; repeat split.
Qed.

End ExtraArithmetic.

(** ** Comparison over [Evaluated] *)

Lemma string_compare_refl : forall s, String.compare s s = Eq.
Proof.
  induction s as [|c s IH]; simpl; [reflexivity|].
  unfold Ascii.compare. rewrite N.compare_refl. exact IH.
Qed.

Lemma string_compare_eq : forall s t, String.compare s t = Eq <-> s = t.
Proof.
  intros s t. split; [apply String.compare_eq_iff|intros <-; apply string_compare_refl].
Qed.

Lemma AstValue_eqb_eq : forall l r, AstValue_eqb l r = true <-> l = r.
Proof.
  intros l r; split.
  - destruct l, r; simpl; intros H; try discriminate H;
      try (apply String.eqb_eq in H; subst; reflexivity);
      try (apply Bool.eqb_prop in H; subst; reflexivity);
      reflexivity.
  - intros <-. destruct l; simpl;
      try apply String.eqb_refl; try apply Bool.eqb_reflx; reflexivity.
Qed.

Section ExtraRelations.

Context {VO : ValueOps}.

(** X9: [partial_cmp] panics exactly when one of its operands, on either
    side, is an owned literal; every other pair gets an ordering or
    [None]. *)
Theorem partial_cmp_panics_iff_owned_literal :
  forall a b : Evaluated,
    Evaluated.partial_cmp a b = Panic <->
    owned_literal a = true \/ owned_literal b = true.
Proof.
  intros [] []; simpl;
    repeat match goal with v : data.Value |- _ => destruct v end; simpl;
    split; intros H; try discriminate H; auto;
    destruct H as [H|H]; discriminate H.
Qed.

(** X10: [partial_cmp] does not depend on whether a typed operand is
    borrowed or owned, on either side. *)
Theorem partial_cmp_typed_ownership_irrelevant :
  forall (v : data.Value) (e : Evaluated),
    Evaluated.partial_cmp (ValueRef v) e = Evaluated.partial_cmp (Value v) e /\
    Evaluated.partial_cmp e (ValueRef v) = Evaluated.partial_cmp e (Value v).
Proof. intros v []; split; reflexivity. Qed.

(** X11: [eq] does not depend on whether a typed operand is borrowed or
    owned, on either side, unless the other operand is an owned literal:
    against an owned literal a borrowed value delegates to the typed
    domain's literal equality while an owned value panics. *)
Theorem eq_typed_ownership :
  forall (v : data.Value) (e : Evaluated) (l : AstValue),
    (owned_literal e = false ->
       Evaluated.eq (ValueRef v) e = Evaluated.eq (Value v) e /\
       Evaluated.eq e (ValueRef v) = Evaluated.eq e (Value v)) /\
    Evaluated.eq (ValueRef v) (Literal l) = Ret (value_eq_ast v l) /\
    Evaluated.eq (Literal l) (ValueRef v) = Ret (value_eq_ast v l) /\
    Evaluated.eq (Value v) (Literal l) = Panic /\
    Evaluated.eq (Literal l) (Value v) = Panic.
Proof.
  intros v e l. split; [|repeat split].
  intros H. destruct e; try discriminate H; split; reflexivity.
Qed.

(** X12: a [StringRef] [s] equals a borrowed literal exactly when it is
    the single-quoted string literal of [s], and equals a typed value,
    borrowed or owned, exactly when it is the text value [s]; both in
    either position. *)
Theorem string_ref_eq_iff :
  forall (o : bool) (s : string) (l : AstValue) (v : data.Value),
    (Evaluated.eq (StringRef s) (LiteralRef l) = Ret true <-> l = SingleQuotedString s) /\
    (Evaluated.eq (LiteralRef l) (StringRef s) = Ret true <-> l = SingleQuotedString s) /\
    (Evaluated.eq (StringRef s) (typed_of o v) = Ret true <-> v = data.Str s) /\
    (Evaluated.eq (typed_of o v) (StringRef s) = Ret true <-> v = data.Str s).
Proof.
  intros o s l v.
  assert (Hl : Evaluated.eq_ast l s = true <-> l = SingleQuotedString s).
  { destruct l; simpl; split; intros H; try discriminate H;
      try (apply String.eqb_eq in H; subst; reflexivity);
      injection H as <-; apply String.eqb_refl. }
  assert (Hv : Evaluated.eq_val v s = true <-> v = data.Str s).
  { destruct v; simpl; split; intros H; try discriminate H;
      try (apply String.eqb_eq in H; subst; reflexivity);
      injection H as <-; apply String.eqb_refl. }
  destruct o; simpl; repeat split; intros H;
    try (injection H as H; apply Hl in H || apply Hv in H; exact H);
    f_equal; first [apply Hl | apply Hv]; exact H.
Qed.

(** X13: on two borrowed literals [eq] is exactly equality of the literal
    nodes. *)
Theorem literal_ref_eq_iff :
  forall l r : AstValue,
    Evaluated.eq (LiteralRef l) (LiteralRef r) = Ret true <-> l = r.
Proof.
  intros l r. simpl. split.
  - intros H. injection H as H. apply AstValue_eqb_eq. exact H.
  - intros H. f_equal. apply AstValue_eqb_eq. exact H.
Qed.

(** X14: [eq] and [partial_cmp] disagree on numeric-text literals: two
    borrowed numeric literals with different texts that parse to the same
    [i64] (such as ["7"] and ["07"]) compare [Equal] yet are not [eq]. *)
Theorem numeric_literal_eq_cmp_disagree :
  forall (a b : string) (x : Z),
    a <> b -> I64.parse a = Some x -> I64.parse b = Some x ->
    Evaluated.partial_cmp (LiteralRef (Number a)) (LiteralRef (Number b)) = Ret (Some Eq) /\
    Evaluated.eq (LiteralRef (Number a)) (LiteralRef (Number b)) = Ret false.
Proof.
  intros a b x Hne Ha Hb. split.
  - simpl. rewrite Ha, Hb, Z.compare_refl. reflexivity.
  - simpl. f_equal. apply String.eqb_neq. exact Hne.
Qed.

(** X15: on text, [eq] and [partial_cmp] agree: for two [StringRef]s, two
    borrowed single-quoted string literals, and a [StringRef] against a
    text value (borrowed or owned), [partial_cmp] is [Some Equal] exactly
    when [eq] is [true]. *)
Theorem text_eq_cmp_agree :
  forall (o : bool) (s t : string),
    (Evaluated.partial_cmp (StringRef s) (StringRef t) = Ret (Some Eq) <->
     Evaluated.eq (StringRef s) (StringRef t) = Ret true) /\
    (Evaluated.partial_cmp (LiteralRef (SingleQuotedString s))
                           (LiteralRef (SingleQuotedString t)) = Ret (Some Eq) <->
     Evaluated.eq (LiteralRef (SingleQuotedString s))
                  (LiteralRef (SingleQuotedString t)) = Ret true) /\
    (Evaluated.partial_cmp (StringRef s) (typed_of o (data.Str t)) = Ret (Some Eq) <->
     Evaluated.eq (StringRef s) (typed_of o (data.Str t)) = Ret true).
Proof.
  intros o s t.
  assert (K : Ret (Some (String.compare s t)) = Ret (Some Eq) <->
              @Ret bool (String.eqb s t) = Ret true).
  { split; intros H; injection H as H.
    - apply string_compare_eq in H. subst. rewrite String.eqb_refl. reflexivity.
    - apply String.eqb_eq in H. subst. rewrite string_compare_refl. reflexivity. }
  split; [|split]; destruct o; simpl; unfold str_partial_cmp, Evaluated.eq_val;
    try rewrite (String.eqb_sym t s); apply K.
Qed.

End ExtraRelations.

(** ** Witnesses of the further properties *)

Lemma literal_helper_result_reparses_witness :
  literal_add true (Number "2") (Number "3") = Ret (Ok (Number "5")) /\
  exists n, Number "5" = Number (I64.to_string n) /\ I64.parse (I64.to_string n) = Some n.
Proof.
  assert (H : literal_add true (Number "2") (Number "3") = Ret (Ok (Number "5")))
    by (vm_compute; reflexivity).
  split; [exact H|].
  exact (literal_helper_result_reparses true (literal_add true) _ _ _
           (or_introl eq_refl) H).
Defined.

Lemma literal_arithmetic_composes_witness :
  exists m,
    Evaluated.multiply (VO := ValueModel.ops) true
      (LiteralRef (Number "2")) (LiteralRef (Number "3")) = Ret (Ok m) /\
    Evaluated.add (VO := ValueModel.ops) true (LiteralRef (Number "1")) m =
      Ret (Ok (Literal (Number "7"))).
Proof.
  destruct (literal_arithmetic_composes (VO := ValueModel.ops) true
              "1"%string "2"%string "3"%string 1 2 3
              eq_refl eq_refl eq_refl eq_refl eq_refl) as [m [H1 H2]].
  exists m. split; [exact H1|]. rewrite H2. vm_compute. reflexivity.
Defined.

Lemma arithmetic_result_owned_witness :
  Evaluated.add (VO := ValueModel.ops) true
    (LiteralRef (Number "2")) (ValueRef (data.I64 3)) = Ret (Ok (Value (data.I64 5))) /\
  owned (Value (data.I64 5)) = true.
Proof.
  assert (H : Evaluated.add (VO := ValueModel.ops) true
                (LiteralRef (Number "2")) (ValueRef (data.I64 3)) = Ret (Ok (Value (data.I64 5))))
    by (vm_compute; reflexivity).
  split; [exact H|].
  exact (proj1 (arithmetic_result_owned (VO := ValueModel.ops) true _ _ _) H).
Defined.

Lemma arithmetic_panics_only_on_numeric_literals_witness :
  Evaluated.divide (VO := ValueModel.ops)
    (Literal (Number "1")) (LiteralRef (Number "0")) = Panic /\
  exists l r, literal_operand (Literal (Number "1")) = Some l /\
              literal_operand (LiteralRef (Number "0")) = Some r /\
              both_numbers l r = true.
Proof.
  assert (H : Evaluated.divide (VO := ValueModel.ops)
                (Literal (Number "1")) (LiteralRef (Number "0")) = Panic)
    by (vm_compute; reflexivity).
  split; [exact H|].
  exact (arithmetic_panics_only_on_numeric_literals (VO := ValueModel.ops) true _ _
           (or_intror (or_intror (or_intror H)))).
Defined.

Lemma arithmetic_non_numeric_literals_witness :
  both_numbers (SingleQuotedString "a") (Number "1") = false /\
  Evaluated.add (VO := ValueModel.ops) true
    (Literal (SingleQuotedString "a")) (LiteralRef (Number "1")) =
    Ret (Err (Evaluate UnreachableLiteralArithmetic)).
Proof.
  split; [reflexivity|].
  exact (proj1 (arithmetic_non_numeric_literals (VO := ValueModel.ops) true true false
                  (SingleQuotedString "a") (Number "1") eq_refl)).
Defined.

Lemma coercion_error_propagates_witness :
  ValueModel.clone_by_literal (data.I64 1) (SingleQuotedString "x") =
    Err (ValueError "literal does not fit the value type") /\
  Evaluated.subtract (VO := ValueModel.ops) true
    (ValueRef (data.I64 1)) (LiteralRef (SingleQuotedString "x")) =
    Ret (Err (ValueError "literal does not fit the value type")).
Proof.
  split; [reflexivity|].
  exact (proj1 (proj2 (proj2 (proj2
           (coercion_error_propagates (VO := ValueModel.ops) true false false
              (SingleQuotedString "x") (data.I64 1) _ eq_refl))))).
Defined.

Lemma coercion_operand_order_witness :
  ValueModel.clone_by_literal (data.I64 10) (Number "3") = Ok (data.I64 3) /\
  Evaluated.subtract (VO := ValueModel.ops) true
    (LiteralRef (Number "3")) (ValueRef (data.I64 10)) = Ret (Ok (Value (data.I64 (-7)))).
Proof.
  split; [reflexivity|].
  pose proof (proj1 (proj2 (proj2
             (coercion_operand_order (VO := ValueModel.ops) true false false
                (Number "3") (data.I64 10) (data.I64 3) eq_refl)))) as H.
  cbn [literal_of typed_of] in H. rewrite H.
  vm_compute. reflexivity.
Defined.

Lemma eq_typed_ownership_witness :
  owned_literal (LiteralRef (Number "3")) = false /\
  Evaluated.eq (VO := ValueModel.ops) (ValueRef (data.I64 3)) (LiteralRef (Number "3")) =
  Evaluated.eq (VO := ValueModel.ops) (Value (data.I64 3)) (LiteralRef (Number "3")).
Proof.
  split; [reflexivity|].
  exact (proj1 (proj1 (eq_typed_ownership (VO := ValueModel.ops)
                         (data.I64 3) (LiteralRef (Number "3")) (Number "3")) eq_refl)).
Defined.

Lemma numeric_literal_eq_cmp_disagree_witness :
  Evaluated.partial_cmp (VO := ValueModel.ops)
    (LiteralRef (Number "7")) (LiteralRef (Number "07")) = Ret (Some Eq) /\
  Evaluated.eq (VO := ValueModel.ops)
    (LiteralRef (Number "7")) (LiteralRef (Number "07")) = Ret false.
Proof.
  apply (numeric_literal_eq_cmp_disagree (VO := ValueModel.ops) "7"%string "07"%string 7).
  - discriminate.
  - vm_compute. reflexivity.
  - vm_compute. reflexivity.
Defined.
